(** * binance.js: the Binance API client, embedded and checked

    A shallow embedding of [src/binance.js]: the method tables, the
    defaults, [signRequestData], [rawRequest] and the three methods of
    [BinanceClient] ([api], [publicMethod], [privateMethod]), followed by
    the properties the specification states about them.

    JavaScript objects are insertion-ordered property lists, exceptions
    are an error value threaded through the calls, a promise is
    represented by the way it settles, and the libraries the file
    requires ([got], [crypto], [qs]) and [JSON.parse] are the fields of a
    [runtime] record.

    The source is embedded as it is written.  [signRequestData] reads
    [date.now()] where no [date] is declared, and [privateMethod] assigns
    to [url], which it declared [const]: both statements throw when they
    run, and so do their counterparts here.  The [defaults] literal lacks
    the comma between its last two entries; it is read as the four
    entries it lists. *)

From Stdlib Require Import ZArith List String Ascii Bool Lia.
From Stdlib Require Import DecimalString.
Import ListNotations.
Local Open Scope string_scope.
Local Open Scope Z_scope.

(** ** JavaScript values *)

(** Scalars: what a parameter, a configuration entry or a header holds. *)
Inductive scalar : Type :=
| VUndefined
| VNull
| VBool (b : bool)
| VNum (n : Z)
| VStr (s : string).

(** A plain object: own properties in insertion order. *)
Definition obj : Type := list (string * scalar).

(** A parsed JSON document, as [JSON.parse] returns it. *)
#[local] Unset Elimination Schemes.
Inductive json : Type :=
| JNull
| JBool (b : bool)
| JNum (n : Z)
| JStr (s : string)
| JArr (items : list json)
| JObj (fields : list (string * json)).
#[local] Set Elimination Schemes.

(** An exception: its class name and its message. *)
Record js_error : Type := mkError { err_name : string; err_message : string }.

Definition Error (msg : string) : js_error := mkError "Error" msg.
Definition TypeError (msg : string) : js_error := mkError "TypeError" msg.
Definition ReferenceError (msg : string) : js_error := mkError "ReferenceError" msg.

(** Synchronous code that may throw. *)
Definition exc (A : Type) : Type := (js_error + A)%type.

Definition ret {A : Type} (a : A) : exc A := inr a.
Definition throw {A : Type} (e : js_error) : exc A := inl e.
Definition bind {A B : Type} (m : exc A) (k : A -> exc B) : exc B :=
  match m with
  | inl e => inl e
  | inr a => k a
  end.

Notation "x <-- m ;; k" := (bind m (fun x => k))
  (at level 61, m at next level, right associativity).

Module Obj.

(** [o.k]: the own property, [undefined] when there is none. *)
Fixpoint get (o : obj) (k : string) : scalar :=
  match o with
  | [] => VUndefined
  | (k', v) :: rest => if String.eqb k k' then v else get rest k
  end.

Fixpoint has (o : obj) (k : string) : bool :=
  match o with
  | [] => false
  | (k', _) :: rest => String.eqb k k' || has rest k
  end.

(** [o.k = v]: overwrite in place, or append a new property. *)
Fixpoint set (o : obj) (k : string) (v : scalar) : obj :=
  match o with
  | [] => [(k, v)]
  | (k', v') :: rest =>
      if String.eqb k k' then (k', v) :: rest else (k', v') :: set rest k v
  end.

(** [Object.assign(target, source)]. *)
Definition assign (target source : obj) : obj :=
  fold_left (fun acc kv => set acc (fst kv) (snd kv)) source target.

End Obj.

(** Truthiness ([ToBoolean]). *)
Definition truthy (v : scalar) : bool :=
  match v with
  | VUndefined | VNull => false
  | VBool b => b
  | VNum n => negb (n =? 0)
  | VStr s => negb (String.eqb s "")
  end.

(** [String(v)] for a scalar.  Numbers are the integers of the model and
    print in decimal, as JavaScript prints an integer below 10^21; from
    there on JavaScript prints an exponent, which is not modelled. *)
Definition to_string (v : scalar) : string :=
  match v with
  | VUndefined => "undefined"
  | VNull => "null"
  | VBool true => "true"
  | VBool false => "false"
  | VNum n => NilEmpty.string_of_int (Z.to_int n)
  | VStr s => s
  end.

(** [String(o)] for a plain object.  [Object.prototype.toString] answers
    ["[object Object]"]; an own [toString] property holding a scalar
    shadows it with something that cannot be called, and the conversion
    throws. *)
Definition object_to_string (o : obj) : exc string :=
  if Obj.has o "toString"
  then throw (TypeError "Cannot convert object to primitive value")
  else ret "[object Object]".

(** ** [encodeURIComponent] *)

Definition hex_digit (n : nat) : ascii :=
  match n with
  | 0 => "0" | 1 => "1" | 2 => "2" | 3 => "3" | 4 => "4" | 5 => "5"
  | 6 => "6" | 7 => "7" | 8 => "8" | 9 => "9" | 10 => "A" | 11 => "B"
  | 12 => "C" | 13 => "D" | 14 => "E" | _ => "F"
  end%nat%char.

Definition in_range (lo hi c : ascii) : bool :=
  ((nat_of_ascii lo <=? nat_of_ascii c) && (nat_of_ascii c <=? nat_of_ascii hi))%nat.

Definition is_alnum (c : ascii) : bool :=
  in_range "a" "z" c || in_range "A" "Z" c || in_range "0" "9" c.

(** The characters [encodeURIComponent] leaves alone. *)
Definition uri_unreserved (c : ascii) : bool :=
  is_alnum c ||
  existsb (Ascii.eqb c) ["-"; "_"; "."; "!"; "~"; "*"; "'"; "("; ")"]%char.

Definition percent_byte (c : ascii) : string :=
  let n := nat_of_ascii c in
  String "%" (String (hex_digit (n / 16)) (String (hex_digit (n mod 16)) ""))%nat.

Fixpoint percent_encode (keep : ascii -> bool) (s : string) : string :=
  match s with
  | EmptyString => ""
  | String c rest =>
      (if keep c then String c "" else percent_byte c) ++ percent_encode keep rest
  end.

(** [encodeURIComponent(o)] on an object: the object is first converted to
    a string, and it is that string which is escaped. *)
Definition encodeURIComponent (o : obj) : exc string :=
  s <-- object_to_string o ;;
  ret (percent_encode uri_unreserved s).

(** ** Method tables and defaults *)

Module methods.
Definition public : list string :=
  ["ping"; "time"; "depth"; "aggTrades"; "klines"; "ticker"; "ticker/24hr"].
Definition private : list string :=
  ["order"; "order/test"; "account"; "openOrders"; "allOrders"; "myTrades";
   "userDataStream"].
End methods.

(** [Array.prototype.includes] on a table of strings. *)
Definition includes (table : list string) (name : string) : bool :=
  existsb (String.eqb name) table.

(** The four entries of the [defaults] literal (the source omits the comma
    between the third and the fourth). *)
Definition defaults : obj :=
  [("url", VStr "https://binance.com");
   ("api_v1", VStr "/api/v1/");
   ("api_exchange_public", VStr "/exchange/public/");
   ("timeout", VNum 5000)].

(** ** The request handed to [got] *)

Record request : Type := mkRequest {
  req_url : string;
  req_headers : obj;
  req_timeout : scalar;
  req_method : string;
  req_body : string
}.

(** What [rawRequest] receives as [data]: the parameter object on the
    public path, the escaped string that replaces it on the private one. *)
Inductive payload : Type :=
| DObj (o : obj)
| DStr (s : string).

(** The collaborators the file requires: [crypto]'s SHA-256 in hexadecimal,
    [qs.stringify], [JSON.parse], and the [got] transport, which answers a
    request with the body text or fails. *)
Record runtime : Type := mkRuntime {
  sha256_hex : string -> string;
  qs_stringify : payload -> string;
  JSON_parse : string -> exc json;
  got : request -> exc string
}.

(** How a promise settles. *)
Inductive settled : Type :=
| Resolved (response : json)
| Rejected (e : js_error).

(** ** [rawRequest]: inspecting the parsed response *)

Fixpoint field (fields : list (string * json)) (k : string) : option json :=
  match fields with
  | [] => None
  | (k', v) :: rest => if String.eqb k k' then Some v else field rest k
  end.

Definition json_truthy (v : json) : bool :=
  match v with
  | JNull => false
  | JBool b => b
  | JNum n => negb (n =? 0)
  | JStr s => negb (String.eqb s "")
  | JArr _ | JObj _ => true
  end.

(** [response.error]: reading a property of [null] throws, any other
    value without the property gives [undefined] ([None]). *)
Definition response_error (response : json) : exc (option json) :=
  match response with
  | JNull => throw (TypeError "Cannot read properties of null (reading 'error')")
  | JObj fields => ret (field fields "error")
  | _ => ret None
  end.

(** Is [v.length] truthy? *)
Definition length_truthy (v : json) : bool :=
  match v with
  | JArr items => negb (Nat.eqb (List.length items) 0)
  | JStr s => negb (String.eqb s "")
  | JObj fields =>
      match field fields "length" with
      | Some l => json_truthy l
      | None => false
      end
  | _ => false
  end.

Definition startsWith (s prefix : string) : bool := String.prefix prefix s.

(** [s.substr(1)]. *)
Definition substr1 (s : string) : string :=
  match s with
  | EmptyString => ""
  | String _ rest => rest
  end.

(** [.filter((e) => e.startsWith('E'))]: an entry that is not a string has
    no [startsWith] to call. *)
Fixpoint filter_E (items : list json) : exc (list string) :=
  match items with
  | [] => ret []
  | JStr s :: rest =>
      kept <-- filter_E rest ;;
      ret (if startsWith s "E" then s :: kept else kept)
  | JNull :: _ =>
      throw (TypeError "Cannot read properties of null (reading 'startsWith')")
  | _ :: _ => throw (TypeError "e.startsWith is not a function")
  end.

Definition join (sep : string) (parts : list string) : string :=
  String.concat sep parts.

(** The part of [rawRequest] after [JSON.parse]: throw on an error
    payload, return the response otherwise. *)
Definition check_response (response : json) : exc json :=
  err <-- response_error response ;;
  match err with
  | None => ret response
  | Some err =>
      if json_truthy err && length_truthy err then
        match err with
        | JArr items =>
            kept <-- filter_E items ;;
            let error := map substr1 kept in
            match error with
            | [] => throw (Error "Binance API returned an unknown error")
            | _ => throw (Error (join ", " error))
            end
        | _ => throw (TypeError "response.error.filter is not a function")
        end
      else ret response
  end.

Definition settle (r : exc json) : settled :=
  match r with
  | inl e => Rejected e
  | inr v => Resolved v
  end.

(** ** Arguments, callbacks and outcomes *)

(** A completion handler: called with [(error, result)], one of them
    [null]; it returns, or throws what it answers. *)
Definition callback_fn : Type := option js_error -> option json -> option js_error.

(** The [params] argument: absent, an object, or the callback standing
    in its place (the documented types of the argument). *)
Inductive arg : Type :=
| ANone
| AObj (o : obj)
| AFun (f : callback_fn).

(** The third argument of the constructor. *)
Inductive options_arg : Type :=
| ONone
| OStr (otp : string)
| OObj (o : obj).

(** [new BinanceClient(key, secret, options)]: the [config] object. *)
Definition BinanceClient (key secret : scalar) (options : options_arg) : obj :=
  let options :=
    match options with
    | OStr otp => [("otp", VStr otp)]
    | OObj o => o
    | ONone => []
    end in
  Obj.assign (Obj.assign [("key", key); ("secret", secret)] defaults) options.

(** One invocation of the callback: its two arguments. *)
Definition cb_call : Type := (option js_error * option json)%type.

(** What a call does: it throws, or returns a promise that settles;
    the requests handed to [got]; the invocations of the callback; and
    the parameter object as the call leaves it. *)
Record outcome : Type := mkOutcome {
  completion : exc settled;
  sent : list request;
  calls : list cb_call;
  final_params : obj
}.

(** [params = params || {}], and a function in the place of [params] is
    the callback. *)
Definition default_params (params : arg) (callback : option callback_fn)
    : obj * option callback_fn :=
  match params with
  | ANone => ([], callback)
  | AObj o => (o, callback)
  | AFun f => ([], Some f)
  end.

(** [response.then(result => callback(null, result))
            .catch(error => callback(error, null))]:
    the second handler also receives what the first one throws. *)
Definition notify (callback : option callback_fn) (response : settled) : list cb_call :=
  match callback with
  | None => []
  | Some f =>
      match response with
      | Resolved result =>
          match f None (Some result) with
          | None => [(None, Some result)]
          | Some thrown => [(None, Some result); (Some thrown, None)]
          end
      | Rejected error => [(Some error, None)]
      end
  end.

(** Reading an identifier that no scope declares. *)
Definition undeclared {A : Type} (name : string) : exc A :=
  throw (ReferenceError (name ++ " is not defined")).

(** Assigning to a [const] binding throws. *)
Definition assign_const {A : Type} (name : string) (v : A) : exc A :=
  throw (TypeError "Assignment to constant variable.").

(** [if(!params.nonce) { params.nonce = new Date() * 1000; }], the clock
    reading [now] milliseconds.  Numbers are the integers of the model;
    the product is exact in a double for every clock reading below
    2^53 / 1000 milliseconds, which is past the year 2250. *)
Definition set_nonce (now : Z) (params : obj) : obj :=
  if negb (truthy (Obj.get params "nonce"))
  then Obj.set params "nonce" (VNum (now * 1000))
  else params.

(** [if(this.config.otp !== undefined) { params.otp = this.config.otp; }] *)
Definition set_otp (config params : obj) : obj :=
  match Obj.get config "otp" with
  | VUndefined => params
  | otp => Obj.set params "otp" otp
  end.

Section Client.

Variable rt : runtime.

(** [rawRequest(url, headers, data, timeout)]: the request it sends and
    the way its promise settles.  Exactly one request goes out. *)
Definition rawRequest (url : string) (headers : obj) (data : payload)
    (timeout : scalar) : request * settled :=
  let headers := Obj.set headers "User-Agent" (VStr "Binance Javascript API Client") in
  let options := mkRequest url headers timeout "POST" (qs_stringify rt data) in
  (options,
   settle (body <-- got rt options ;;
           response <-- JSON_parse rt body ;;
           check_response response)).

(** *** [signRequestData] *)

(** The [hash_digest] constant: SHA-256, in hexadecimal, of the escaped
    data, a bar and the secret. *)
Definition hash_digest (data : obj) (api_secret : scalar) : exc string :=
  encoded <-- encodeURIComponent data ;;
  ret (sha256_hex rt (encoded ++ "|" ++ to_string api_secret)).

(** [signRequestData(data, api_secret)]: the object as the function
    leaves it, and the string it returns.  The digest is computed first;
    the timestamp is then read from [date.now()], and the file declares
    no [date].  Nothing has been written to [data] when either of the
    first two steps throws. *)
Definition signRequestData (data : obj) (api_secret : scalar)
    : exc (obj * string) :=
  digest <-- hash_digest data api_secret ;;
  timestamp <-- undeclared "date" ;;
  let data := Obj.set data "timestamp" timestamp in
  let data := Obj.set data "signature" (VStr digest) in
  encoded <-- encodeURIComponent data ;;
  ret (data, encoded).

(** *** The client *)

Definition publicMethod (config : obj) (method : string) (params : arg)
    (callback : option callback_fn) : outcome :=
  let '(params, callback) := default_params params callback in
  let path := "/api/v1/" ++ method in
  let url := to_string (Obj.get config "url") ++ path in
  let '(req, response) :=
    rawRequest url [] (DObj params) (Obj.get config "timeout") in
  mkOutcome (ret response) [req] (notify callback response) params.

(** [privateMethod(method, params, callback, signed)], called when the
    clock reads [now] milliseconds.  [url] is declared [const] and then
    assigned to. *)
Definition privateMethod (config : obj) (now : Z) (method : string)
    (params : arg) (callback : option callback_fn) (signed : bool) : outcome :=
  let '(params, callback) := default_params params callback in
  let path := "/api/v1/" ++ method in
  let url := to_string (Obj.get config "url") ++ path in
  let params := set_nonce now params in
  let params := set_otp config params in
  let encoded :=
    if signed
    then signRequestData params (Obj.get config "secret")
    else (s <-- encodeURIComponent params ;; ret (params, s)) in
  match encoded with
  | inl e => mkOutcome (throw e) [] [] params
  | inr (data, query) =>
      match assign_const "url" (url ++ "?" ++ query) with
      | inl e => mkOutcome (throw e) [] [] data
      | inr url =>
          let headers := [("X-MBX-APIKEY", Obj.get config "key")] in
          let '(req, response) :=
            rawRequest url headers (DStr query) (Obj.get config "timeout") in
          mkOutcome (ret response) [req] (notify callback response) data
      end
  end.

(** [api(method, params, callback)]: [privateMethod] is called with
    three arguments, so [signed] takes its default. *)
Definition api (config : obj) (now : Z) (method : string) (params : arg)
    (callback : option callback_fn) : outcome :=
  let '(params, callback) :=
    match params with
    | AFun f => (AObj [], Some f)
    | _ => (params, callback)
    end in
  if includes methods.public method then publicMethod config method params callback
  else if includes methods.private method
       then privateMethod config now method params callback false
       else mkOutcome (throw (Error (method ++ " is not a valid API method.")))
              [] [] (fst (default_params params callback)).

End Client.

(** ** A runtime for closed examples

    The theorems below hold for every [runtime].  Closed examples need one:
    [qs_flat] follows [qs.stringify] on a flat mapping of scalars, a
    rolling checksum printed in hexadecimal stands in for SHA-256, and the
    transport and the parser answer with what they are given. *)

Definition qs_unreserved (c : ascii) : bool :=
  is_alnum c || existsb (Ascii.eqb c) ["-"; "."; "_"; "~"]%char.

Definition qs_pair (kv : string * scalar) : list string :=
  let key := percent_encode qs_unreserved (fst kv) in
  match snd kv with
  | VUndefined => []
  | VNull => [key ++ "="]
  | v => [key ++ "=" ++ percent_encode qs_unreserved (to_string v)]
  end.

Definition qs_flat (data : payload) : string :=
  match data with
  | DObj o => join "&" (flat_map qs_pair o)
  | DStr _ => ""
  end.

Fixpoint checksum (s : string) (acc : Z) : Z :=
  match s with
  | EmptyString => acc
  | String c rest => checksum rest ((acc * 31 + Z.of_nat (nat_of_ascii c)) mod 2 ^ 32)
  end.

Fixpoint hex_of (digits : nat) (n : Z) : string :=
  match digits with
  | O => ""
  | S d => hex_of d (n / 16) ++ String (hex_digit (Z.to_nat (n mod 16))) ""
  end.

Definition checksum_hex (s : string) : string := hex_of 8 (checksum s 7).

Definition canned (reply : exc string) (parsed : exc json) : runtime :=
  mkRuntime checksum_hex qs_flat (fun _ => parsed) (fun _ => reply).

(** A transport that cannot connect. *)
Definition ECONNREFUSED : js_error := mkError "RequestError" "connect ECONNREFUSED".
Definition offline : runtime := canned (inl ECONNREFUSED) (inl ECONNREFUSED).

(** A transport that answers with the given document. *)
Definition answering (response : json) : runtime := canned (inr "body") (inr response).

(** ** The vocabulary of the specification *)

(** The two channels of the propagation policy. *)
Definition returned_failure (out : outcome) (e : js_error) : Prop :=
  completion out = inl e \/ completion out = inr (Rejected e).

Definition passed_to_callback (out : outcome) (e : js_error) : Prop :=
  In (Some e, None) (calls out).


(** * Properties *)

(** ** Objects *)

Lemma get_set_same (o : obj) (k : string) (v : scalar) :
  Obj.get (Obj.set o k v) k = v.
Proof.
  induction o as [| [k' v'] rest IH]; simpl.
  - now rewrite String.eqb_refl.
  - destruct (String.eqb k k') eqn:E; simpl; rewrite E; auto.
Qed.

Lemma get_set_other (o : obj) (k k' : string) (v : scalar) :
  k' <> k -> Obj.get (Obj.set o k v) k' = Obj.get o k'.
Proof.
  intros Hne. apply String.eqb_neq in Hne.
  induction o as [| [k0 v0] rest IH]; simpl.
  - now rewrite Hne.
  - destruct (String.eqb k k0) eqn:E; simpl.
    + apply String.eqb_eq in E. subst k0. now rewrite Hne.
    + now rewrite IH.
Qed.

Lemma has_set_other (o : obj) (k k' : string) (v : scalar) :
  k' <> k -> Obj.has (Obj.set o k v) k' = Obj.has o k'.
Proof.
  intros Hne. apply String.eqb_neq in Hne.
  induction o as [| [k0 v0] rest IH]; simpl.
  - now rewrite Hne.
  - destruct (String.eqb k k0) eqn:E; simpl.
    + reflexivity.
    + now rewrite IH.
Qed.

Lemma has_false_get (o : obj) (k : string) :
  Obj.has o k = false -> Obj.get o k = VUndefined.
Proof.
  induction o as [| [k' v'] rest IH]; simpl; auto.
  destruct (String.eqb k k'); simpl; [discriminate | exact IH].
Qed.

(** The two injections of [privateMethod] touch [nonce] and [otp] only. *)
Lemma set_nonce_other (now : Z) (o : obj) (k : string) :
  k <> "nonce" -> Obj.get (set_nonce now o) k = Obj.get o k.
Proof.
  intros Hk. unfold set_nonce.
  destruct (negb (truthy (Obj.get o "nonce"))); auto using get_set_other.
Qed.

Lemma set_otp_other (config o : obj) (k : string) :
  k <> "otp" -> Obj.get (set_otp config o) k = Obj.get o k.
Proof.
  intros Hk. unfold set_otp.
  destruct (Obj.get config "otp"); auto using get_set_other.
Qed.

(** ** The shape of a private call *)

Ltac private_paths :=
  unfold signRequestData, hash_digest, encodeURIComponent, object_to_string,
    undeclared, assign_const, throw, ret, bind;
  destruct (Obj.has _ "toString").

(** Whatever the arguments, the parameter object a private call leaves
    behind is the caller's with the nonce and the one-time password put
    in. *)
Lemma privateMethod_final_params (rt : runtime) (config : obj) (now : Z)
    (method : string) (params : arg) (callback : option callback_fn) (signed : bool) :
  final_params (privateMethod rt config now method params callback signed)
  = set_otp config (set_nonce now (fst (default_params params callback))).
Proof.
  unfold privateMethod. destruct (default_params params callback) as [o callback'].
  cbn [fst].
  destruct signed; private_paths; reflexivity.
Qed.

(** A private call throws before [rawRequest] is reached: nothing is sent
    and the callback is not called. *)
Lemma privateMethod_throws (rt : runtime) (config : obj) (now : Z)
    (method : string) (params : arg) (callback : option callback_fn) (signed : bool) :
  (exists e, completion (privateMethod rt config now method params callback signed) = inl e)
  /\ sent (privateMethod rt config now method params callback signed) = []
  /\ calls (privateMethod rt config now method params callback signed) = [].
Proof.
  unfold privateMethod. destruct (default_params params callback) as [o callback'].
  destruct signed; private_paths; cbn; eauto.
Qed.

(** The two method tables are disjoint. *)
Lemma private_not_public (method : string) :
  includes methods.private method = true -> includes methods.public method = false.
Proof.
  unfold includes. intros H. apply existsb_exists in H.
  destruct H as [m [Hin Heq]]. apply String.eqb_eq in Heq. subst m.
  simpl in Hin.
  repeat (destruct Hin as [<- | Hin]; [reflexivity |]).
  contradiction.
Qed.

(** ** The method router *)

(** C3. A method name that is in neither table makes [api] throw at once
    the error "<name> is not a valid API method."; no request is handed to
    the transport and the callback is not called. *)
Theorem api_invalid_method (rt : runtime) (config : obj) (now : Z)
    (method : string) (params : arg) (callback : option callback_fn) :
  includes methods.public method = false ->
  includes methods.private method = false ->
  completion (api rt config now method params callback)
    = throw (Error (method ++ " is not a valid API method."))
  /\ sent (api rt config now method params callback) = []
  /\ calls (api rt config now method params callback) = [].
Proof.
  intros Hpub Hpriv. unfold api.
  destruct params; rewrite Hpub, Hpriv; auto.
Qed.

Lemma api_invalid_method_witness :
  completion (api offline (BinanceClient (VStr "k3y") (VStr "s3cr3t") ONone)
                1700000000000 "withdraw" (AObj [("asset", VStr "BTC")]) None)
    = throw (Error "withdraw is not a valid API method.")
  /\ sent (api offline (BinanceClient (VStr "k3y") (VStr "s3cr3t") ONone)
             1700000000000 "withdraw" (AObj [("asset", VStr "BTC")]) None) = []
  /\ calls (api offline (BinanceClient (VStr "k3y") (VStr "s3cr3t") ONone)
              1700000000000 "withdraw" (AObj [("asset", VStr "BTC")]) None) = [].
Proof.
  apply (api_invalid_method offline _ _ "withdraw"); reflexivity.
Defined.

(** C10. Through [api] a private method is always run with [signed] at
    its default, false: the call is [privateMethod] with that flag, it
    hands no request to the transport, and the parameter object comes out
    with the [signature] and [timestamp] properties it came in with. *)
Theorem api_private_never_signed (rt : runtime) (config : obj) (now : Z)
    (method : string) (params : arg) (callback : option callback_fn) :
  includes methods.private method = true ->
  api rt config now method params callback
    = privateMethod rt config now method params callback false
  /\ sent (api rt config now method params callback) = []
  /\ Obj.get (final_params (api rt config now method params callback)) "signature"
     = Obj.get (fst (default_params params callback)) "signature"
  /\ Obj.get (final_params (api rt config now method params callback)) "timestamp"
     = Obj.get (fst (default_params params callback)) "timestamp".
Proof.
  intros Hpriv.
  assert (Heq : api rt config now method params callback
                = privateMethod rt config now method params callback false).
  { unfold api. rewrite (private_not_public _ Hpriv), Hpriv.
    destruct params; reflexivity. }
  rewrite Heq, privateMethod_final_params.
  split; [reflexivity |].
  split; [apply privateMethod_throws |].
  split; rewrite set_otp_other, set_nonce_other; auto; discriminate.
Qed.

Lemma api_private_never_signed_witness :
  api offline (BinanceClient (VStr "k3y") (VStr "s3cr3t") ONone) 1700000000000
      "order" (AObj [("symbol", VStr "BTCUSDT"); ("side", VStr "BUY")]) None
    = privateMethod offline (BinanceClient (VStr "k3y") (VStr "s3cr3t") ONone)
        1700000000000 "order"
        (AObj [("symbol", VStr "BTCUSDT"); ("side", VStr "BUY")]) None false
  /\ final_params
       (api offline (BinanceClient (VStr "k3y") (VStr "s3cr3t") ONone) 1700000000000
          "order" (AObj [("symbol", VStr "BTCUSDT"); ("side", VStr "BUY")]) None)
     = [("symbol", VStr "BTCUSDT"); ("side", VStr "BUY");
        ("nonce", VNum 1700000000000000)].
Proof.
  split.
  - apply (api_private_never_signed offline _ _ "order"). reflexivity.
  - reflexivity.
Defined.

(** ** The nonce *)

(** C7, as the claim states its second half: a nonce the caller supplied
    is left as it was.  A nonce of zero is replaced. *)
Lemma supplied_nonce_zero_replaced :
  Obj.has [("nonce", VNum 0)] "nonce" = true
  /\ Obj.get (final_params
               (privateMethod offline (BinanceClient (VStr "k3y") (VStr "s3cr3t") ONone)
                  1700000000000 "order" (AObj [("nonce", VNum 0)]) None false))
             "nonce"
     <> Obj.get [("nonce", VNum 0)] "nonce".
Proof.
  split; [reflexivity | vm_compute; discriminate].
Qed.

(** C7, amended. A private call whose parameter object has no [nonce], or
    a falsy one (zero, the empty string, [null], [false]), sets the nonce
    to the clock's milliseconds times 1000; a truthy nonce of the caller
    is left unchanged. *)
Theorem private_nonce (rt : runtime) (config : obj) (now : Z) (method : string)
    (params : arg) (callback : option callback_fn) (signed : bool) :
  (Obj.has (fst (default_params params callback)) "nonce" = false ->
   Obj.get (final_params (privateMethod rt config now method params callback signed)) "nonce"
   = VNum (now * 1000))
  /\ (truthy (Obj.get (fst (default_params params callback)) "nonce") = false ->
      Obj.get (final_params (privateMethod rt config now method params callback signed)) "nonce"
      = VNum (now * 1000))
  /\ (truthy (Obj.get (fst (default_params params callback)) "nonce") = true ->
      Obj.get (final_params (privateMethod rt config now method params callback signed)) "nonce"
      = Obj.get (fst (default_params params callback)) "nonce").
Proof.
  rewrite privateMethod_final_params.
  rewrite set_otp_other by discriminate.
  unfold set_nonce. repeat split.
  - intros H. rewrite (has_false_get _ _ H). cbn. apply get_set_same.
  - intros ->. cbn. apply get_set_same.
  - intros ->. reflexivity.
Qed.

Lemma private_nonce_witness :
  Obj.get (final_params
             (privateMethod offline (BinanceClient (VStr "k3y") (VStr "s3cr3t") ONone)
                1700000000000 "order" (AObj [("symbol", VStr "BTCUSDT")]) None false))
          "nonce" = VNum (1700000000000 * 1000)
  /\ Obj.get (final_params
                (privateMethod offline (BinanceClient (VStr "k3y") (VStr "s3cr3t") ONone)
                   1700000000000 "order" (AObj [("nonce", VNum 42)]) None false))
             "nonce" = VNum 42.
Proof.
  split.
  - apply (private_nonce offline _ _ "order" (AObj [("symbol", VStr "BTCUSDT")])).
    reflexivity.
  - apply (private_nonce offline (BinanceClient (VStr "k3y") (VStr "s3cr3t") ONone)
             1700000000000 "order" (AObj [("nonce", VNum 42)]) None false).
    reflexivity.
Defined.

(** ** The response normalizer *)

(** Once the transport has answered and the body has parsed, the promise
    of [rawRequest] settles as the inspection of the response decides. *)
Lemma rawRequest_settles (rt : runtime) (url : string) (headers : obj)
    (data : payload) (timeout : scalar) (body : string) (response : json) :
  got rt (fst (rawRequest rt url headers data timeout)) = inr body ->
  JSON_parse rt body = inr response ->
  snd (rawRequest rt url headers data timeout) = settle (check_response response).
Proof.
  unfold rawRequest. cbn [fst snd]. intros -> . cbn [bind]. now intros ->.
Qed.

(** On an array of strings the filter keeps the entries that start with
    the letter E. *)
Lemma filter_E_strings (entries : list string) :
  filter_E (map JStr entries) = inr (filter (fun s => startsWith s "E") entries).
Proof.
  induction entries as [| s rest IH]; cbn [map filter_E filter].
  - reflexivity.
  - rewrite IH. cbn [bind ret]. now destruct (startsWith s "E").
Qed.

Lemma filter_none (entries : list string) :
  Forall (fun s => startsWith s "E" = false) entries ->
  filter (fun s => startsWith s "E") entries = [].
Proof.
  induction 1 as [| s rest Hs _ IH]; cbn [filter]; [reflexivity |].
  now rewrite Hs.
Qed.

(** A non-empty [error] array always ends in a throw. *)
Lemma check_response_error_array (fields : list (string * json)) (items : list json) :
  field fields "error" = Some (JArr items) ->
  items <> [] ->
  exists e, check_response (JObj fields) = inl e.
Proof.
  intros Hf Hne. unfold check_response. cbn [response_error bind ret].
  rewrite Hf. destruct items as [| x rest]; [contradiction |].
  cbn [json_truthy length_truthy List.length Nat.eqb negb andb].
  destruct (filter_E (x :: rest)) as [e | kept]; cbn [bind].
  - eauto.
  - destruct (map substr1 kept); unfold throw; eauto.
Qed.

(** C4, as the claim states it: the message for
    [{"error": ["E-1013", "Einvalid quantity"]}] is "1013, invalid quantity".
    The promise is rejected with another message. *)
Lemma scenario_message_is_not_1013 :
  exists e,
    snd (rawRequest
           (answering (JObj [("error", JArr [JStr "E-1013"; JStr "Einvalid quantity"])]))
           "https://binance.com/api/v1/depth" [] (DObj []) (VNum 5000))
    = Rejected e
    /\ err_message e <> "1013, invalid quantity".
Proof.
  exists (Error "-1013, invalid quantity"). split; [reflexivity | discriminate].
Qed.

(** C4, amended. When the parsed response carries an [error] array of
    strings of which some start with the letter E, the promise is rejected
    with an [Error] whose message is those entries, each without its first
    character, joined by a comma and a space; for
    [{"error": ["E-1013", "Einvalid quantity"]}] that is
    "-1013, invalid quantity". *)
Theorem error_entries_joined (rt : runtime) (url : string) (headers : obj)
    (data : payload) (timeout : scalar) (body : string)
    (fields : list (string * json)) (entries : list string) :
  got rt (fst (rawRequest rt url headers data timeout)) = inr body ->
  JSON_parse rt body = inr (JObj fields) ->
  field fields "error" = Some (JArr (map JStr entries)) ->
  filter (fun s => startsWith s "E") entries <> [] ->
  snd (rawRequest rt url headers data timeout)
  = Rejected (Error (join ", "
                       (map substr1 (filter (fun s => startsWith s "E") entries)))).
Proof.
  intros Hgot Hparse Hf Hkept.
  rewrite (rawRequest_settles _ _ _ _ _ _ _ Hgot Hparse).
  unfold check_response. cbn [response_error bind ret]. rewrite Hf.
  destruct entries as [| s rest]; [now elim Hkept |].
  cbn [json_truthy map length_truthy List.length Nat.eqb negb andb].
  change (JStr s :: map JStr rest) with (map JStr (s :: rest)).
  rewrite filter_E_strings. cbn [bind].
  destruct (filter (fun s0 => startsWith s0 "E") (s :: rest)) as [| k ks];
    [now elim Hkept | reflexivity].
Qed.

Lemma error_entries_joined_witness :
  snd (rawRequest
         (answering (JObj [("error", JArr [JStr "E-1013"; JStr "Einvalid quantity"])]))
         "https://binance.com/api/v1/depth" [] (DObj []) (VNum 5000))
  = Rejected (Error "-1013, invalid quantity").
Proof.
  apply (error_entries_joined _ _ _ _ _ "body"
           [("error", JArr [JStr "E-1013"; JStr "Einvalid quantity"])]
           ["E-1013"; "Einvalid quantity"]).
  - reflexivity.
  - reflexivity.
  - reflexivity.
  - discriminate.
Defined.

(** C5, amended. When the parsed response carries a non-empty [error]
    array, the response is never returned as a success, whatever the
    entries; and when the entries are strings none of which starts with
    the letter E, the promise is rejected with the message
    "Binance API returned an unknown error". *)
Theorem unknown_error_fallback (rt : runtime) (url : string) (headers : obj)
    (data : payload) (timeout : scalar) (body : string)
    (fields : list (string * json)) (items : list json) :
  got rt (fst (rawRequest rt url headers data timeout)) = inr body ->
  JSON_parse rt body = inr (JObj fields) ->
  field fields "error" = Some (JArr items) ->
  items <> [] ->
  (forall r, snd (rawRequest rt url headers data timeout) <> Resolved r)
  /\ (forall entries,
        items = map JStr entries ->
        Forall (fun s => startsWith s "E" = false) entries ->
        snd (rawRequest rt url headers data timeout)
        = Rejected (Error "Binance API returned an unknown error")).
Proof.
  intros Hgot Hparse Hf Hne.
  rewrite (rawRequest_settles _ _ _ _ _ _ _ Hgot Hparse).
  split.
  - intros r. destruct (check_response_error_array _ _ Hf Hne) as [e ->].
    discriminate.
  - intros entries -> Hall.
    unfold check_response. cbn [response_error bind ret]. rewrite Hf.
    destruct entries as [| s rest]; [now elim Hne |].
    cbn [json_truthy map length_truthy List.length Nat.eqb negb andb].
    change (JStr s :: map JStr rest) with (map JStr (s :: rest)).
    rewrite filter_E_strings, (filter_none _ Hall). reflexivity.
Qed.

Lemma unknown_error_fallback_witness :
  snd (rawRequest (answering (JObj [("error", JArr [JStr "warn-only"])]))
         "https://binance.com/api/v1/depth" [] (DObj []) (VNum 5000))
  = Rejected (Error "Binance API returned an unknown error").
Proof.
  refine (proj2 (unknown_error_fallback _ _ _ _ _ "body"
                   [("error", JArr [JStr "warn-only"])] [JStr "warn-only"]
                   _ _ _ _) ["warn-only"] _ _).
  - reflexivity.
  - reflexivity.
  - reflexivity.
  - discriminate.
  - reflexivity.
  - repeat constructor.
Defined.

(** C5, as the claim states it: a non-empty [error] sequence in which no
    entry begins with the prefix gives the generic message.  The entry of
    [{"error": [5]}] begins with nothing, and the promise is rejected with
    the [TypeError] of the filter, not with the generic message. *)
Lemma number_entry_no_fallback :
  Forall (fun entry => forall s, entry = JStr s -> startsWith s "E" = false) [JNum 5]
  /\ snd (rawRequest (answering (JObj [("error", JArr [JNum 5])]))
            "https://binance.com/api/v1/depth" [] (DObj []) (VNum 5000))
     = Rejected (TypeError "e.startsWith is not a function")
  /\ snd (rawRequest (answering (JObj [("error", JArr [JNum 5])]))
            "https://binance.com/api/v1/depth" [] (DObj []) (VNum 5000))
     <> Rejected (Error "Binance API returned an unknown error").
Proof.
  split; [| split].
  - constructor; [| constructor]. intros s Hs. discriminate Hs.
  - reflexivity.
  - discriminate.
Qed.

(** ** Public calls *)

(** A public call is [publicMethod]: one request, and the promise of
    [rawRequest] is what the caller gets back. *)
Lemma api_public (rt : runtime) (config : obj) (now : Z) (method : string)
    (params : arg) (callback : option callback_fn) :
  includes methods.public method = true ->
  api rt config now method params callback = publicMethod rt config method params callback.
Proof.
  intros Hpub. unfold api. destruct params; rewrite Hpub; reflexivity.
Qed.

Lemma publicMethod_outcome (rt : runtime) (config : obj) (method : string)
    (params : arg) (callback : option callback_fn) :
  publicMethod rt config method params callback
  = let p := fst (default_params params callback) in
    let r := rawRequest rt (to_string (Obj.get config "url") ++ "/api/v1/" ++ method)
               [] (DObj p) (Obj.get config "timeout") in
    mkOutcome (ret (snd r)) [fst r] (notify (snd (default_params params callback)) (snd r)) p.
Proof.
  unfold publicMethod. destruct (default_params params callback) as [p callback']. reflexivity.
Qed.

(** C8. For a method of the public table the one request built has the
    URL [config.url] followed by "/api/v1/" and the method name, the
    single header [User-Agent] (no [X-MBX-APIKEY]), and as body the
    form-encoding of the caller's parameter object, to which nothing is
    added: it has a [signature] exactly when the caller put one.  With
    empty parameters the body is the encoding of the empty object, the
    empty string for [qs]. *)
Theorem public_request_unsigned (rt : runtime) (config : obj) (now : Z)
    (method : string) (params : arg) (callback : option callback_fn) :
  includes methods.public method = true ->
  sent (api rt config now method params callback)
  = [mkRequest (to_string (Obj.get config "url") ++ "/api/v1/" ++ method)
       [("User-Agent", VStr "Binance Javascript API Client")]
       (Obj.get config "timeout") "POST"
       (qs_stringify rt (DObj (fst (default_params params callback))))]
  /\ final_params (api rt config now method params callback)
     = fst (default_params params callback)
  /\ (forall r, In r (sent (api rt config now method params callback)) ->
        Obj.has (req_headers r) "X-MBX-APIKEY" = false)
  /\ (fst (default_params params callback) = [] -> qs_stringify rt (DObj []) = "" ->
      forall r, In r (sent (api rt config now method params callback)) -> req_body r = "").
Proof.
  intros Hpub. rewrite (api_public _ _ _ _ _ _ Hpub), publicMethod_outcome.
  cbn [sent final_params rawRequest fst snd Obj.set].
  repeat split.
  - intros r [<- | []]. reflexivity.
  - intros Hempty Hqs r [<- | []]. cbn [req_body]. now rewrite Hempty.
Qed.

Lemma public_request_unsigned_witness :
  sent (api offline (BinanceClient (VStr "k3y") (VStr "s3cr3t") ONone) 1700000000000
          "ping" (AObj []) None)
  = [mkRequest "https://binance.com/api/v1/ping"
       [("User-Agent", VStr "Binance Javascript API Client")]
       (VNum 5000) "POST" ""].
Proof.
  apply (public_request_unsigned offline
           (BinanceClient (VStr "k3y") (VStr "s3cr3t") ONone) 1700000000000
           "ping" (AObj []) None).
  reflexivity.
Defined.

(** ** Reporting errors *)

(** C6, as the claim states it: an error reaches the caller through the
    returned failure or through the callback, never through both.  A failed
    public call made with a callback reports the error on both. *)
Lemma error_reported_twice :
  returned_failure
    (api offline (BinanceClient (VStr "k3y") (VStr "s3cr3t") ONone) 1700000000000
       "ping" (AObj []) (Some (fun _ _ => None)))
    ECONNREFUSED
  /\ passed_to_callback
       (api offline (BinanceClient (VStr "k3y") (VStr "s3cr3t") ONone) 1700000000000
          "ping" (AObj []) (Some (fun _ _ => None)))
       ECONNREFUSED.
Proof.
  split.
  - right. reflexivity.
  - left. reflexivity.
Qed.

(** C6, amended. The error of a public call is never swallowed: the call
    returns the promise of [rawRequest], so a failed request always
    rejects the returned promise; and when a callback was supplied the
    same error is passed to it as well, in exactly one invocation.
    Without a callback the rejected promise is the only report. *)
Theorem public_error_reported (rt : runtime) (config : obj) (now : Z)
    (method : string) (params : arg) (callback : option callback_fn) (e : js_error) :
  includes methods.public method = true ->
  snd (rawRequest rt (to_string (Obj.get config "url") ++ "/api/v1/" ++ method)
         [] (DObj (fst (default_params params callback))) (Obj.get config "timeout"))
  = Rejected e ->
  completion (api rt config now method params callback) = inr (Rejected e)
  /\ calls (api rt config now method params callback)
     = match snd (default_params params callback) with
       | Some _ => [(Some e, None)]
       | None => []
       end.
Proof.
  intros Hpub Hrej. rewrite (api_public _ _ _ _ _ _ Hpub), publicMethod_outcome.
  cbn [completion calls]. cbv zeta. rewrite Hrej. split; [reflexivity |].
  unfold notify. now destruct (snd (default_params params callback)).
Qed.

Lemma public_error_reported_witness :
  completion (api offline (BinanceClient (VStr "k3y") (VStr "s3cr3t") ONone)
                1700000000000 "ping" (AObj []) (Some (fun _ _ => None)))
    = inr (Rejected ECONNREFUSED)
  /\ calls (api offline (BinanceClient (VStr "k3y") (VStr "s3cr3t") ONone)
              1700000000000 "ping" (AObj []) (Some (fun _ _ => None)))
     = [(Some ECONNREFUSED, None)].
Proof.
  apply (public_error_reported offline
           (BinanceClient (VStr "k3y") (VStr "s3cr3t") ONone) 1700000000000
           "ping" (AObj []) (Some (fun _ _ => None)) ECONNREFUSED);
    reflexivity.
Defined.

(** ** Signing *)

Example encodeURIComponent_object :
  encodeURIComponent [("symbol", VStr "BTCUSDT"); ("side", VStr "BUY")]
  = inr "%5Bobject%20Object%5D".
Proof. reflexivity. Qed.

(** What is escaped is the text of the object, not its properties. *)
Lemma encodeURIComponent_plain (data : obj) :
  Obj.has data "toString" = false ->
  encodeURIComponent data = inr "%5Bobject%20Object%5D".
Proof.
  intros H. unfold encodeURIComponent, object_to_string. now rewrite H.
Qed.

Lemma hash_digest_plain (rt : runtime) (data : obj) (api_secret : scalar) :
  Obj.has data "toString" = false ->
  hash_digest rt data api_secret
  = inr (sha256_hex rt ("%5Bobject%20Object%5D|" ++ to_string api_secret)).
Proof.
  intros H. unfold hash_digest. now rewrite (encodeURIComponent_plain _ H).
Qed.

Lemma private_params_toString (config : obj) (now : Z) (o : obj) :
  Obj.has (set_otp config (set_nonce now o)) "toString" = Obj.has o "toString".
Proof.
  unfold set_otp, set_nonce.
  destruct (Obj.get config "otp"), (negb (truthy (Obj.get o "nonce")));
    repeat rewrite has_set_other by discriminate; reflexivity.
Qed.

(** C1, on the code. Two signed calls with the same parameter object at
    any two moments compute the same digest, the hash of
    "%5Bobject%20Object%5D", a bar and the secret, whatever nonces the
    two clock readings put into the object; each call then throws the
    [ReferenceError] of [date.now()], hands nothing to the transport, and
    leaves the object with the [signature] property it came with. *)
Theorem signed_calls_same_digest (rt : runtime) (config : obj) (now now' : Z)
    (method : string) (o : obj) (callback : option callback_fn) :
  Obj.has o "toString" = false ->
  hash_digest rt (final_params (privateMethod rt config now method (AObj o) callback true))
    (Obj.get config "secret")
  = inr (sha256_hex rt ("%5Bobject%20Object%5D|" ++ to_string (Obj.get config "secret")))
  /\ hash_digest rt (final_params (privateMethod rt config now' method (AObj o) callback true))
       (Obj.get config "secret")
     = hash_digest rt (final_params (privateMethod rt config now method (AObj o) callback true))
         (Obj.get config "secret")
  /\ completion (privateMethod rt config now method (AObj o) callback true)
     = throw (ReferenceError "date is not defined")
  /\ sent (privateMethod rt config now method (AObj o) callback true) = []
  /\ Obj.get (final_params (privateMethod rt config now method (AObj o) callback true)) "signature"
     = Obj.get o "signature".
Proof.
  intros Hplain.
  assert (Hdigest : forall t,
    hash_digest rt (final_params (privateMethod rt config t method (AObj o) callback true))
      (Obj.get config "secret")
    = inr (sha256_hex rt ("%5Bobject%20Object%5D|" ++ to_string (Obj.get config "secret")))).
  { intros t. apply hash_digest_plain.
    rewrite privateMethod_final_params. cbn [default_params fst].
    now rewrite private_params_toString. }
  split; [apply Hdigest |].
  split; [now rewrite !Hdigest |].
  split; [| split].
  - unfold privateMethod. cbn [default_params].
    unfold signRequestData, hash_digest, encodeURIComponent, object_to_string.
    rewrite private_params_toString, Hplain. reflexivity.
  - apply privateMethod_throws.
  - rewrite privateMethod_final_params. cbn [default_params fst].
    rewrite set_otp_other, set_nonce_other; auto; discriminate.
Qed.

Lemma signed_calls_same_digest_witness :
  Obj.get (final_params
             (privateMethod offline (BinanceClient (VStr "k3y") (VStr "s3cr3t") ONone)
                1700000000000 "order"
                (AObj [("symbol", VStr "BTCUSDT"); ("side", VStr "BUY")]) None true))
          "nonce" = VNum 1700000000000000
  /\ Obj.get (final_params
                (privateMethod offline (BinanceClient (VStr "k3y") (VStr "s3cr3t") ONone)
                   1700000000001 "order"
                   (AObj [("symbol", VStr "BTCUSDT"); ("side", VStr "BUY")]) None true))
             "nonce" = VNum 1700000000001000
  /\ hash_digest offline
       (final_params
          (privateMethod offline (BinanceClient (VStr "k3y") (VStr "s3cr3t") ONone)
             1700000000001 "order"
             (AObj [("symbol", VStr "BTCUSDT"); ("side", VStr "BUY")]) None true))
       (VStr "s3cr3t")
     = hash_digest offline
         (final_params
            (privateMethod offline (BinanceClient (VStr "k3y") (VStr "s3cr3t") ONone)
               1700000000000 "order"
               (AObj [("symbol", VStr "BTCUSDT"); ("side", VStr "BUY")]) None true))
         (VStr "s3cr3t").
Proof.
  split; [reflexivity |]. split; [reflexivity |].
  apply (signed_calls_same_digest offline
           (BinanceClient (VStr "k3y") (VStr "s3cr3t") ONone)
           1700000000000 1700000000001 "order"
           [("symbol", VStr "BTCUSDT"); ("side", VStr "BUY")] None).
  reflexivity.
Defined.

(** The whole outcome of a private call. *)
Lemma privateMethod_outcome (rt : runtime) (config : obj) (now : Z)
    (method : string) (params : arg) (callback : option callback_fn) (signed : bool) :
  privateMethod rt config now method params callback signed
  = mkOutcome
      (inl (if Obj.has (fst (default_params params callback)) "toString"
            then TypeError "Cannot convert object to primitive value"
            else if signed
                 then ReferenceError "date is not defined"
                 else TypeError "Assignment to constant variable."))
      [] []
      (set_otp config (set_nonce now (fst (default_params params callback)))).
Proof.
  unfold privateMethod. destruct (default_params params callback) as [o callback'].
  cbn [fst].
  unfold signRequestData, hash_digest, encodeURIComponent, object_to_string.
  rewrite private_params_toString.
  destruct (Obj.has o "toString"), signed; reflexivity.
Qed.

(** C9, on the code. Signing yields no signature to recompute:
    [signRequestData] returns for no data object and no secret, and a
    signed call throws, sends nothing and leaves the [signature] of the
    parameter object as the caller had it, the digest never written. *)
Theorem signature_never_produced (rt : runtime) (config : obj) (now : Z)
    (method : string) (params : arg) (callback : option callback_fn) :
  (forall data api_secret signed_data,
     signRequestData rt data api_secret <> inr signed_data)
  /\ (exists e,
        completion (privateMethod rt config now method params callback true) = inl e)
  /\ sent (privateMethod rt config now method params callback true) = []
  /\ Obj.get (final_params (privateMethod rt config now method params callback true))
       "signature"
     = Obj.get (fst (default_params params callback)) "signature".
Proof.
  split.
  - intros data api_secret signed_data.
    unfold signRequestData, hash_digest, encodeURIComponent, object_to_string.
    destruct (Obj.has data "toString"); discriminate.
  - rewrite privateMethod_outcome. cbn [completion sent final_params].
    split; [eauto |]. split; [reflexivity |].
    rewrite set_otp_other, set_nonce_other; auto; discriminate.
Qed.




(** * Further properties of the code *)

(** ** The constructor *)






(** ** Private calls *)

(** X2. A private call never gets as far as the transport.  It throws
    while it prepares the request: a [TypeError] when the parameter object
    has a [toString] property of its own, else the [ReferenceError] of
    [date.now()] when signing was asked for, else the [TypeError] of the
    assignment to the constant [url].  Nothing is sent and the callback is
    not called. *)
Theorem privateMethod_always_throws (rt : runtime) (config : obj) (now : Z)
    (method : string) (params : arg) (callback : option callback_fn) (signed : bool) :
  completion (privateMethod rt config now method params callback signed)
  = inl (if Obj.has (fst (default_params params callback)) "toString"
         then TypeError "Cannot convert object to primitive value"
         else if signed
              then ReferenceError "date is not defined"
              else TypeError "Assignment to constant variable.")
  /\ sent (privateMethod rt config now method params callback signed) = []
  /\ calls (privateMethod rt config now method params callback signed) = [].
Proof.
  split; [| apply privateMethod_throws].
  unfold privateMethod. destruct (default_params params callback) as [o callback'].
  cbn [fst].
  unfold signRequestData, hash_digest, encodeURIComponent, object_to_string.
  rewrite private_params_toString.
  destruct (Obj.has o "toString"), signed; reflexivity.
Qed.

(** X3. [signRequestData] never returns the signed parameters: it throws
    for every data object and every secret, the [ReferenceError] of
    [date.now()] unless escaping the object has thrown already. *)
Theorem signRequestData_never_returns (rt : runtime) (data : obj) (api_secret : scalar) :
  signRequestData rt data api_secret
  = inl (if Obj.has data "toString"
         then TypeError "Cannot convert object to primitive value"
         else ReferenceError "date is not defined").
Proof.
  unfold signRequestData, hash_digest, encodeURIComponent, object_to_string.
  destruct (Obj.has data "toString"); reflexivity.
Qed.

(** X4. The one-time password of the configuration, when it is anything
    but [undefined], is written into the parameter object of a private
    call over whatever [otp] the caller put there; with no configured
    password the caller's [otp] stays. *)
Theorem private_otp (rt : runtime) (config : obj) (now : Z) (method : string)
    (params : arg) (callback : option callback_fn) (signed : bool) :
  Obj.get (final_params (privateMethod rt config now method params callback signed)) "otp"
  = match Obj.get config "otp" with
    | VUndefined => Obj.get (fst (default_params params callback)) "otp"
    | otp => otp
    end.
Proof.
  rewrite privateMethod_final_params. unfold set_otp.
  destruct (Obj.get config "otp"); try apply get_set_same.
  apply set_nonce_other. discriminate.
Qed.

(** X5. A client built with a string as third argument uses it as the
    one-time password: every private call writes that string into the
    [otp] of its parameter object. *)
Theorem string_option_is_otp (rt : runtime) (key secret : scalar) (otp : string)
    (now : Z) (method : string) (params : arg) (callback : option callback_fn)
    (signed : bool) :
  Obj.get (final_params
             (privateMethod rt (BinanceClient key secret (OStr otp)) now method
                params callback signed)) "otp"
  = VStr otp.
Proof.
  rewrite privateMethod_final_params. unfold set_otp.
  replace (Obj.get (BinanceClient key secret (OStr otp)) "otp") with (VStr otp)
    by reflexivity.
  apply get_set_same.
Qed.

(** X6. A private call changes nothing in the caller's parameter object
    but [nonce] and [otp]. *)
Theorem private_params_frame (rt : runtime) (config : obj) (now : Z)
    (method : string) (params : arg) (callback : option callback_fn) (signed : bool)
    (k : string) :
  k <> "nonce" -> k <> "otp" ->
  Obj.get (final_params (privateMethod rt config now method params callback signed)) k
  = Obj.get (fst (default_params params callback)) k.
Proof.
  intros Hnonce Hotp. rewrite privateMethod_final_params.
  now rewrite set_otp_other, set_nonce_other.
Qed.

Lemma private_params_frame_witness :
  Obj.get (final_params
             (privateMethod offline (BinanceClient (VStr "k3y") (VStr "s3cr3t") (OStr "123456"))
                1700000000000 "order" (AObj [("symbol", VStr "BTCUSDT")]) None false))
          "symbol"
  = VStr "BTCUSDT".
Proof.
  apply (private_params_frame offline
           (BinanceClient (VStr "k3y") (VStr "s3cr3t") (OStr "123456"))
           1700000000000 "order" (AObj [("symbol", VStr "BTCUSDT")]) None false
           "symbol"); discriminate.
Defined.

(** X7. While the product of the clock and 1000 is an integer a double
    holds exactly (at most 2^53 in size), the nonce is the clock and
    nothing else: two private calls whose parameters carry no nonce get
    the same nonce exactly when they are made at the same millisecond, and
    a later call gets a larger one. *)
Theorem nonce_follows_clock (rt : runtime) (config : obj) (now now' : Z)
    (method : string) (params : arg) (callback : option callback_fn) (signed : bool) :
  Z.abs (now * 1000) <= 2 ^ 53 ->
  Z.abs (now' * 1000) <= 2 ^ 53 ->
  Obj.has (fst (default_params params callback)) "nonce" = false ->
  exists n n',
    Obj.get (final_params (privateMethod rt config now method params callback signed))
      "nonce" = VNum n
    /\ Obj.get (final_params (privateMethod rt config now' method params callback signed))
         "nonce" = VNum n'
    /\ Z.abs n <= 2 ^ 53 /\ Z.abs n' <= 2 ^ 53
    /\ (n = n' <-> now = now')
    /\ (n < n' <-> now < now').
Proof.
  intros Hexact Hexact' Hnone. exists (now * 1000), (now' * 1000).
  rewrite !privateMethod_final_params.
  rewrite !set_otp_other by discriminate.
  unfold set_nonce. rewrite (has_false_get _ _ Hnone). cbn [truthy negb].
  rewrite !get_set_same. repeat split; try assumption; lia.
Qed.

Lemma nonce_follows_clock_witness :
  exists n n',
    Obj.get (final_params
               (privateMethod offline (BinanceClient (VStr "k3y") (VStr "s3cr3t") ONone)
                  1700000000000 "order" (AObj [("symbol", VStr "BTCUSDT")]) None false))
      "nonce" = VNum n
    /\ Obj.get (final_params
                  (privateMethod offline (BinanceClient (VStr "k3y") (VStr "s3cr3t") ONone)
                     1700000000001 "order" (AObj [("symbol", VStr "BTCUSDT")]) None false))
         "nonce" = VNum n'
    /\ Z.abs n <= 2 ^ 53 /\ Z.abs n' <= 2 ^ 53
    /\ (n = n' <-> 1700000000000 = 1700000000001)
    /\ (n < n' <-> 1700000000000 < 1700000000001).
Proof.
  apply (nonce_follows_clock offline (BinanceClient (VStr "k3y") (VStr "s3cr3t") ONone)
           1700000000000 1700000000001 "order" (AObj [("symbol", VStr "BTCUSDT")])
           None false).
  - vm_compute. discriminate.
  - vm_compute. discriminate.
  - reflexivity.
Defined.

(** ** What [rawRequest] makes of a response *)

(** X8. A response object with no [error] property is the value the
    promise resolves with, unchanged. *)
Theorem response_without_error_resolves (rt : runtime) (url : string)
    (headers : obj) (data : payload) (timeout : scalar) (body : string)
    (fields : list (string * json)) :
  got rt (fst (rawRequest rt url headers data timeout)) = inr body ->
  JSON_parse rt body = inr (JObj fields) ->
  field fields "error" = None ->
  snd (rawRequest rt url headers data timeout) = Resolved (JObj fields).
Proof.
  intros Hgot Hparse Hnone.
  rewrite (rawRequest_settles _ _ _ _ _ _ _ Hgot Hparse).
  unfold check_response. cbn [response_error bind ret]. now rewrite Hnone.
Qed.

Lemma response_without_error_resolves_witness :
  snd (rawRequest (answering (JObj [("serverTime", JNum 1700000000000)]))
         "https://binance.com/api/v1/time" [] (DObj []) (VNum 5000))
  = Resolved (JObj [("serverTime", JNum 1700000000000)]).
Proof.
  apply (response_without_error_resolves _ _ _ _ _ "body"); reflexivity.
Defined.

(** X9. An [error] property that is not a non-empty sequence is ignored:
    when it is an empty array, [null], a boolean, a number, the empty
    string, or an object without a [length], the response is returned as
    a success with the [error] still in it. *)
Theorem ignored_error_payloads (rt : runtime) (url : string)
    (headers : obj) (data : payload) (timeout : scalar) (body : string)
    (fields : list (string * json)) (err : json) :
  got rt (fst (rawRequest rt url headers data timeout)) = inr body ->
  JSON_parse rt body = inr (JObj fields) ->
  field fields "error" = Some err ->
  (err = JArr [] \/ err = JNull \/ (exists b, err = JBool b)
   \/ (exists n, err = JNum n) \/ err = JStr ""
   \/ (exists props, err = JObj props /\ field props "length" = None)) ->
  snd (rawRequest rt url headers data timeout) = Resolved (JObj fields).
Proof.
  intros Hgot Hparse Herr Hshape.
  rewrite (rawRequest_settles _ _ _ _ _ _ _ Hgot Hparse).
  unfold check_response. cbn [response_error bind ret]. rewrite Herr.
  destruct Hshape as [-> | [-> | [[b ->] | [[n ->] | [-> | [props [-> Hlen]]]]]]];
    cbn [json_truthy length_truthy List.length Nat.eqb negb andb settle];
    try reflexivity.
  - now rewrite andb_false_r.
  - now rewrite andb_false_r.
  - now rewrite Hlen.
Qed.

Lemma ignored_error_payloads_witness :
  snd (rawRequest
         (answering (JObj [("error", JObj [("code", JNum (-1013)); ("msg", JStr "Invalid quantity.")])]))
         "https://binance.com/api/v1/depth" [] (DObj []) (VNum 5000))
  = Resolved (JObj [("error", JObj [("code", JNum (-1013)); ("msg", JStr "Invalid quantity.")])]).
Proof.
  apply (ignored_error_payloads _ _ _ _ _ "body" _
           (JObj [("code", JNum (-1013)); ("msg", JStr "Invalid quantity.")]));
    try reflexivity.
  do 5 right. eexists. split; reflexivity.
Defined.

(** X10. A body that parses to something other than an object: [null]
    rejects the promise with a [TypeError] (its [error] cannot be read);
    a number, a string, a boolean or an array is resolved as it is. *)
Theorem non_object_response (rt : runtime) (url : string)
    (headers : obj) (data : payload) (timeout : scalar) (body : string)
    (response : json) :
  got rt (fst (rawRequest rt url headers data timeout)) = inr body ->
  JSON_parse rt body = inr response ->
  (forall fields, response <> JObj fields) ->
  (response = JNull ->
   exists msg, snd (rawRequest rt url headers data timeout) = Rejected (TypeError msg))
  /\ (response <> JNull ->
      snd (rawRequest rt url headers data timeout) = Resolved response).
Proof.
  intros Hgot Hparse Hnot.
  rewrite (rawRequest_settles _ _ _ _ _ _ _ Hgot Hparse).
  split.
  - intros ->. cbn. eauto.
  - intros Hnull. destruct response; try reflexivity.
    + now elim Hnull.
    + now elim (Hnot fields).
Qed.

Lemma non_object_response_witness :
  snd (rawRequest (answering (JArr [JNum 1; JNum 2]))
         "https://binance.com/api/v1/klines" [] (DObj []) (VNum 5000))
  = Resolved (JArr [JNum 1; JNum 2]).
Proof.
  refine (proj2 (non_object_response _ _ _ _ _ "body" (JArr [JNum 1; JNum 2]) _ _ _) _);
    try reflexivity; discriminate.
Defined.

(** X11. An [error] that is a non-empty string, not an array, is not
    reported as that text: it has a [length] but no [filter], and the
    promise is rejected with a [TypeError]. *)
Theorem error_string_rejects_with_TypeError (rt : runtime) (url : string)
    (headers : obj) (data : payload) (timeout : scalar) (body : string)
    (fields : list (string * json)) (text : string) :
  got rt (fst (rawRequest rt url headers data timeout)) = inr body ->
  JSON_parse rt body = inr (JObj fields) ->
  field fields "error" = Some (JStr text) ->
  text <> "" ->
  exists msg, snd (rawRequest rt url headers data timeout) = Rejected (TypeError msg).
Proof.
  intros Hgot Hparse Herr Htext.
  rewrite (rawRequest_settles _ _ _ _ _ _ _ Hgot Hparse).
  unfold check_response. cbn [response_error bind ret]. rewrite Herr.
  cbn [json_truthy length_truthy].
  apply String.eqb_neq in Htext. rewrite Htext. cbn. eauto.
Qed.

Lemma error_string_rejects_with_TypeError_witness :
  exists msg,
    snd (rawRequest (answering (JObj [("error", JStr "EAPI:Invalid key")]))
           "https://binance.com/api/v1/depth" [] (DObj []) (VNum 5000))
    = Rejected (TypeError msg).
Proof.
  apply (error_string_rejects_with_TypeError _ _ _ _ _ "body"
           [("error", JStr "EAPI:Invalid key")] "EAPI:Invalid key");
    try reflexivity; discriminate.
Defined.

(** The filter throws as soon as an entry is not a string. *)
Lemma filter_E_non_string (items : list json) :
  Exists (fun entry => forall s, entry <> JStr s) items ->
  exists msg, filter_E items = inl (TypeError msg).
Proof.
  induction items as [| entry rest IH]; intros Hex.
  - inversion Hex.
  - destruct entry; cbn [filter_E]; unfold throw; eauto.
    assert (Hrest : Exists (fun entry => forall s0, entry <> JStr s0) rest).
    { inversion Hex as [? ? Hhead | ? ? Htail]; subst; [| assumption].
      now elim (Hhead s). }
    destruct (IH Hrest) as [msg ->]. cbn [bind]. eauto.
Qed.

(** X12. One entry that is not a string spoils the whole [error] array:
    whatever the other entries are, the promise is rejected with a
    [TypeError] and not with the joined message. *)
Theorem non_string_entry_rejects (rt : runtime) (url : string)
    (headers : obj) (data : payload) (timeout : scalar) (body : string)
    (fields : list (string * json)) (items : list json) :
  got rt (fst (rawRequest rt url headers data timeout)) = inr body ->
  JSON_parse rt body = inr (JObj fields) ->
  field fields "error" = Some (JArr items) ->
  Exists (fun entry => forall s, entry <> JStr s) items ->
  exists msg, snd (rawRequest rt url headers data timeout) = Rejected (TypeError msg).
Proof.
  intros Hgot Hparse Herr Hex.
  rewrite (rawRequest_settles _ _ _ _ _ _ _ Hgot Hparse).
  unfold check_response. cbn [response_error bind ret]. rewrite Herr.
  destruct items as [| entry rest]; [inversion Hex |].
  cbn [json_truthy length_truthy List.length Nat.eqb negb andb].
  destruct (filter_E_non_string _ Hex) as [msg ->]. cbn. eauto.
Qed.

Lemma non_string_entry_rejects_witness :
  exists msg,
    snd (rawRequest (answering (JObj [("error", JArr [JStr "E-1013"; JNum 5])]))
           "https://binance.com/api/v1/depth" [] (DObj []) (VNum 5000))
    = Rejected (TypeError msg).
Proof.
  apply (non_string_entry_rejects _ _ _ _ _ "body"
           [("error", JArr [JStr "E-1013"; JNum 5])] [JStr "E-1013"; JNum 5]);
    try reflexivity.
  apply Exists_cons_tl, Exists_cons_hd. discriminate.
Defined.

(** X13. A failure of the transport, or of the parser, is the rejection
    of the promise as it is; the response is inspected in neither case. *)
Theorem transport_failure_passes_through (rt : runtime) (url : string)
    (headers : obj) (data : payload) (timeout : scalar) (e : js_error) :
  (got rt (fst (rawRequest rt url headers data timeout)) = inl e
   \/ exists body,
        got rt (fst (rawRequest rt url headers data timeout)) = inr body
        /\ JSON_parse rt body = inl e) ->
  snd (rawRequest rt url headers data timeout) = Rejected e.
Proof.
  unfold rawRequest. cbn [fst snd].
  intros [Hgot | [body [Hgot Hparse]]]; rewrite Hgot; cbn [bind].
  - reflexivity.
  - now rewrite Hparse.
Qed.

Lemma transport_failure_passes_through_witness :
  snd (rawRequest offline "https://binance.com/api/v1/ping" [] (DObj []) (VNum 5000))
  = Rejected ECONNREFUSED.
Proof.
  apply (transport_failure_passes_through offline). left. reflexivity.
Defined.

(** X14. Every request of [rawRequest] is a POST to the URL given, with
    the timeout given; the [User-Agent] header is the client's, over any
    header of that name passed in, and the other headers are passed on. *)
Theorem rawRequest_request (rt : runtime) (url : string) (headers : obj)
    (data : payload) (timeout : scalar) :
  req_method (fst (rawRequest rt url headers data timeout)) = "POST"
  /\ req_url (fst (rawRequest rt url headers data timeout)) = url
  /\ req_timeout (fst (rawRequest rt url headers data timeout)) = timeout
  /\ req_body (fst (rawRequest rt url headers data timeout)) = qs_stringify rt data
  /\ Obj.get (req_headers (fst (rawRequest rt url headers data timeout))) "User-Agent"
     = VStr "Binance Javascript API Client"
  /\ (forall k, k <> "User-Agent" ->
        Obj.get (req_headers (fst (rawRequest rt url headers data timeout))) k
        = Obj.get headers k).
Proof.
  unfold rawRequest. cbn [fst req_method req_url req_timeout req_body req_headers].
  repeat split.
  - apply get_set_same.
  - intros k Hk. now apply get_set_other.
Qed.

(** ** Public calls and the router *)

(** X15. When a public call succeeds and a callback was given, the
    callback receives [(null, result)] and the returned promise resolves
    with the same result.  A callback that throws while it handles the
    result is called a second time, with what it threw as the error. *)
Theorem public_success_callback (rt : runtime) (config : obj) (now : Z)
    (method : string) (params : arg) (callback : option callback_fn)
    (f : callback_fn) (result : json) :
  includes methods.public method = true ->
  snd (default_params params callback) = Some f ->
  snd (rawRequest rt (to_string (Obj.get config "url") ++ "/api/v1/" ++ method)
         [] (DObj (fst (default_params params callback))) (Obj.get config "timeout"))
  = Resolved result ->
  completion (api rt config now method params callback) = inr (Resolved result)
  /\ (f None (Some result) = None ->
      calls (api rt config now method params callback) = [(None, Some result)])
  /\ (forall thrown, f None (Some result) = Some thrown ->
      calls (api rt config now method params callback)
      = [(None, Some result); (Some thrown, None)]).
Proof.
  intros Hpub Hf Hres. rewrite (api_public _ _ _ _ _ _ Hpub), publicMethod_outcome.
  cbn [completion calls]. cbv zeta. rewrite Hres, Hf. cbn [notify].
  split; [reflexivity |]. split.
  - now intros ->.
  - now intros thrown ->.
Qed.

Lemma public_success_callback_witness :
  calls (api (answering (JObj [("serverTime", JNum 1700000000000)]))
           (BinanceClient (VStr "k3y") (VStr "s3cr3t") ONone) 1700000000000 "time"
           ANone (Some (fun _ _ => Some (Error "handler failed"))))
  = [(None, Some (JObj [("serverTime", JNum 1700000000000)]));
     (Some (Error "handler failed"), None)].
Proof.
  refine (proj2 (proj2 (public_success_callback
                          (answering (JObj [("serverTime", JNum 1700000000000)]))
                          (BinanceClient (VStr "k3y") (VStr "s3cr3t") ONone)
                          1700000000000 "time" ANone
                          (Some (fun _ _ => Some (Error "handler failed")))
                          (fun _ _ => Some (Error "handler failed"))
                          (JObj [("serverTime", JNum 1700000000000)]) _ _ _))
            (Error "handler failed") _); reflexivity.
Defined.

(** X16. No name is in both method tables, so the order in which [api]
    tests them decides nothing. *)
Theorem method_tables_disjoint (method : string) :
  includes methods.public method && includes methods.private method = false.
Proof.
  destruct (includes methods.private method) eqn:Hpriv.
  - now rewrite (private_not_public _ Hpriv).
  - apply andb_false_r.
Qed.

(** X17. [publicMethod] does not look at the method name.  Called
    directly, with any name at all, a private one included, it sends the
    one request to [config.url] + "/api/v1/" + name, with no API key, and
    leaves the parameter object as it was. *)
Theorem publicMethod_unchecked (rt : runtime) (config : obj) (method : string)
    (params : arg) (callback : option callback_fn) :
  sent (publicMethod rt config method params callback)
  = [mkRequest (to_string (Obj.get config "url") ++ "/api/v1/" ++ method)
       [("User-Agent", VStr "Binance Javascript API Client")]
       (Obj.get config "timeout") "POST"
       (qs_stringify rt (DObj (fst (default_params params callback))))]
  /\ final_params (publicMethod rt config method params callback)
     = fst (default_params params callback)
  /\ exists response,
       completion (publicMethod rt config method params callback) = inr response.
Proof.
  rewrite publicMethod_outcome. cbn. eauto.
Qed.

(** X18. Whatever the arguments, [api] hands at most one request to the
    transport, calls the callback at most twice and only after a request
    was sent, and sends nothing when it throws. *)
Theorem api_single_attempt (rt : runtime) (config : obj) (now : Z)
    (method : string) (params : arg) (callback : option callback_fn) :
  (List.length (sent (api rt config now method params callback)) <= 1)%nat
  /\ (List.length (calls (api rt config now method params callback)) <= 2)%nat
  /\ (sent (api rt config now method params callback) = [] ->
      calls (api rt config now method params callback) = [])
  /\ (forall e, completion (api rt config now method params callback) = inl e ->
      sent (api rt config now method params callback) = []).
Proof.
  destruct (includes methods.public method) eqn:Hpub.
  - rewrite (api_public _ _ _ _ _ _ Hpub), publicMethod_outcome.
    cbn [sent calls completion List.length]. cbv zeta.
    repeat split; try lia; try discriminate.
    unfold notify.
    destruct (snd (default_params params callback)) as [f |]; [| cbn; lia].
    destruct (snd (rawRequest _ _ _ _ _)) as [result | e]; [| cbn; lia].
    destruct (f None (Some result)); cbn; lia.
  - destruct (includes methods.private method) eqn:Hpriv.
    + assert (Heq : api rt config now method params callback
                    = privateMethod rt config now method params callback false).
      { unfold api. rewrite Hpub, Hpriv. destruct params; reflexivity. }
      rewrite Heq.
      destruct (privateMethod_throws rt config now method params callback false)
        as [_ [-> ->]].
      cbn. repeat split; auto; lia.
    + unfold api. destruct params; rewrite Hpub, Hpriv; cbn; repeat split; auto; lia.
Qed.
